(** * dolphin-lib: the Stripe facade and the Mandrill mail provider

    A shallow embedding of [src/stripe/index.js] and
    [src/mailer/providers/mandrill.js].

    Both files are thin adapters: they check their arguments, call a
    vendor SDK and bridge the SDK's completion callbacks to a [Q]
    deferred.  The embedding keeps that shape:

    - module [JS] is the fragment of the language the two files rely on:
      values, [ToBoolean] (the [if (!x)] and [x || d] tests), the global
      [isNaN], property reads and [for ... in] enumeration;
    - module [Q] is the deferred: pending until settled, settled once;
    - module [Stripe] has one definition per method of
      [Stripe.prototype]; a method returns the promise it hands back
      together with the vendor calls it issued, each call carrying the
      callback the method passed to the SDK;
    - module [Mandrill] has [getContent], whose first callback issues
      the second vendor call. *)

From Stdlib Require Import ZArith NArith List String Ascii Bool Lia.
From Stdlib Require Import Permutation DecimalString.
From Stdlib Require Import Floats.SpecFloat.
From Stdlib Require Import DecimalN.
Import ListNotations.

Local Open Scope string_scope.
Local Open Scope list_scope.

Set Warnings "-register-all".

(* ================================================================== *)
(** ** The JavaScript fragment *)
(* ================================================================== *)

Module JS.

(** A Number is an IEEE 754 binary64; [spec_float] is the Standard
    Library's specification of those. *)
Definition number : Type := spec_float.

Definition num_of_Z (z : Z) : number := binary_normalize 53 1024 z 0 false.

Definition num_is_nan (n : number) : bool :=
  match n with S754_nan => true | _ => false end.

Definition num_is_zero (n : number) : bool :=
  match n with S754_zero _ => true | _ => false end.

(** The values the two files handle: primitives, arrays, plain data
    objects and [Error] objects.  Strings are sequences of code units
    (here: below 256).  An object is the list of its own enumerable
    data properties in creation order; no value of this universe is
    callable. *)
Inductive value : Type :=
| VUndefined
| VNull
| VBool (b : bool)
| VNum (n : number)
| VStr (s : string)
| VArr (elems : list value)
| VObj (props : list (string * value))
| VError (message : string).

Definition props : Type := list (string * value).

(** A completion: a normal result, or a [TypeError] thrown by the
    runtime (reading a property of [undefined]/[null], or converting an
    object that has no usable [toString]). *)
Inductive completion (A : Type) : Type :=
| Normal (a : A)
| ThrowTypeError.
Arguments Normal {A} a.
Arguments ThrowTypeError {A}.

Definition bind {A B} (c : completion A) (k : A -> completion B) : completion B :=
  match c with
  | Normal a => k a
  | ThrowTypeError => ThrowTypeError
  end.

Notation "x <- c ;; k" := (bind c (fun x => k))
  (at level 61, c at next level, right associativity).

(** *** ToBoolean *)

Definition truthy (v : value) : bool :=
  match v with
  | VUndefined | VNull => false
  | VBool b => b
  | VNum n => negb (num_is_zero n || num_is_nan n)
  | VStr s => negb (s =? "")
  | VArr _ | VObj _ | VError _ => true
  end.

(** [a || b] evaluates to [a] when [a] is truthy and to [b] otherwise. *)
Definition or_else (a b : value) : value := if truthy a then a else b.

(** *** Own properties *)

Fixpoint lookup (k : string) (ps : props) : option value :=
  match ps with
  | [] => None
  | (k', v) :: ps' => if k' =? k then Some v else lookup k ps'
  end.

Definition has_key (k : string) (ps : props) : bool :=
  match lookup k ps with Some _ => true | None => false end.

(** An array index is the canonical decimal form of an integer below
    [2^32 - 1]. *)
Definition index_key (i : N) : string := NilEmpty.string_of_uint (N.to_uint i).

Definition key_index (k : string) : option N :=
  match NilEmpty.uint_of_string k with
  | Some u =>
      let i := N.of_uint u in
      if (index_key i =? k) && (i <? 4294967295)%N then Some i else None
  | None => None
  end.

Definition is_index (k : string) : bool :=
  match key_index k with Some _ => true | None => false end.

(** *** Property read [v[k]], for names that the built-in prototypes
    do not define (the code reads [data], [code], [html] and the keys
    that [for ... in] hands it). *)
Definition nth_elem {A} (i : N) (l : list A) : option A :=
  if (i <? N.of_nat (List.length l))%N then nth_error l (N.to_nat i) else None.

Definition get (v : value) (k : string) : completion value :=
  match v with
  | VUndefined | VNull => ThrowTypeError
  | VBool _ | VNum _ => Normal VUndefined
  | VStr s =>
      match key_index k with
      | Some i =>
          match nth_elem i (list_ascii_of_string s) with
          | Some c => Normal (VStr (String c EmptyString))
          | None => Normal VUndefined
          end
      | None =>
          if k =? "length" then Normal (VNum (num_of_Z (Z.of_nat (String.length s))))
          else Normal VUndefined
      end
  | VArr l =>
      match key_index k with
      | Some i =>
          match nth_elem i l with
          | Some e => Normal e
          | None => Normal VUndefined
          end
      | None =>
          if k =? "length" then Normal (VNum (num_of_Z (Z.of_nat (List.length l))))
          else Normal VUndefined
      end
  | VObj ps =>
      match lookup k ps with
      | Some x => Normal x
      | None => Normal VUndefined
      end
  | VError m => if k =? "message" then Normal (VStr m) else Normal VUndefined
  end.

(** *** Enumeration order of [for ... in]

    Array-index keys first, in ascending numeric order, then the other
    string keys in creation order. *)
Fixpoint insert_key (x : N * string) (l : list (N * string)) : list (N * string) :=
  match l with
  | [] => [x]
  | y :: l' => if (fst x <=? fst y)%N then x :: l else y :: insert_key x l'
  end.

Fixpoint sort_keys (l : list (N * string)) : list (N * string) :=
  match l with
  | [] => []
  | x :: l' => insert_key x (sort_keys l')
  end.

Fixpoint index_keys (ks : list string) : list (N * string) :=
  match ks with
  | [] => []
  | k :: ks' =>
      match key_index k with
      | Some i => (i, k) :: index_keys ks'
      | None => index_keys ks'
      end
  end.

Definition own_keys (ps : props) : list string :=
  let ks := map fst ps in
  map snd (sort_keys (index_keys ks)) ++ filter (fun k => negb (is_index k)) ks.

Definition indices (n : nat) : list string :=
  map (fun i => index_key (N.of_nat i)) (seq 0 n).

(** The keys a [for (var k in v)] loop visits.  [undefined], [null],
    numbers and booleans have none; the own properties of an [Error]
    are not enumerable. *)
Definition for_in_keys (v : value) : list string :=
  match v with
  | VObj ps => own_keys ps
  | VArr l => indices (List.length l)
  | VStr s => indices (String.length s)
  | _ => []
  end.

(** *** ToNumber on strings: is the result NaN?

    A string converts to a number when, once surrounding white space is
    removed, it is empty or a [StrNumericLiteral]; otherwise to NaN. *)
Definition code (c : ascii) : nat := nat_of_ascii c.

Definition between (lo hi : nat) (c : ascii) : bool :=
  (lo <=? code c)%nat && (code c <=? hi)%nat.

Definition is_space (c : ascii) : bool :=
  between 9 13 c || (code c =? 32)%nat || (code c =? 160)%nat.

Definition is_digit : ascii -> bool := between 48 57.
Definition is_bin_digit : ascii -> bool := between 48 49.
Definition is_oct_digit : ascii -> bool := between 48 55.
Definition is_hex_digit (c : ascii) : bool :=
  is_digit c || between 65 70 c || between 97 102 c.

Fixpoint skip (p : ascii -> bool) (s : string) : string :=
  match s with
  | String c s' => if p c then skip p s' else s
  | EmptyString => s
  end.

Fixpoint trim_right (s : string) : string :=
  match s with
  | EmptyString => EmptyString
  | String c s' =>
      match trim_right s' with
      | EmptyString => if is_space c then EmptyString else String c EmptyString
      | t => String c t
      end
  end.

Definition trim (s : string) : string := trim_right (skip is_space s).

(** One or more characters of class [p], and nothing else. *)
Definition some_of (p : ascii -> bool) (s : string) : bool :=
  match s with
  | EmptyString => false
  | String _ _ => skip p s =? ""
  end.

Definition starts_with (p : ascii -> bool) (s : string) : bool :=
  match s with
  | String c _ => p c
  | EmptyString => false
  end.

(** [ExponentPart] (optional), then the end of the string. *)
Definition exponent_opt (s : string) : bool :=
  match s with
  | EmptyString => true
  | String c r =>
      if (c =? "e")%char || (c =? "E")%char then
        match r with
        | String "+" d | String "-" d => some_of is_digit d
        | _ => some_of is_digit r
        end
      else false
  end.

Definition unsigned_decimal (s : string) : bool :=
  if s =? "Infinity" then true
  else
    match s with
    | EmptyString => false
    | String "." r => starts_with is_digit r && exponent_opt (skip is_digit r)
    | String c _ =>
        is_digit c &&
        match skip is_digit s with
        | String "." r => exponent_opt (skip is_digit r)
        | r => exponent_opt r
        end
    end.

Definition non_decimal (s : string) : bool :=
  match s with
  | String "0" (String c r) =>
      if (c =? "x")%char || (c =? "X")%char then some_of is_hex_digit r
      else if (c =? "o")%char || (c =? "O")%char then some_of is_oct_digit r
      else if (c =? "b")%char || (c =? "B")%char then some_of is_bin_digit r
      else false
  | _ => false
  end.

Definition numeric_literal (s : string) : bool :=
  match s with
  | String "+" r | String "-" r => unsigned_decimal r
  | _ => unsigned_decimal s || non_decimal s
  end.

Definition string_is_nan (s : string) : bool :=
  match trim s with
  | EmptyString => false
  | t => negb (numeric_literal t)
  end.

(** *** ToNumber on objects

    An object converts through [valueOf] and [toString].  No value here
    is callable, so an own [toString] property leaves the object with no
    usable conversion: a [TypeError].  Otherwise a plain object prints
    as [[object Object]], an [Error] as [Error: ...], and an array as
    its elements joined by commas, [undefined] and [null] printing as
    nothing. *)
Fixpoint print_throws (v : value) : bool :=
  match v with
  | VObj ps => has_key "toString" ps
  | VArr l => existsb print_throws l
  | _ => false
  end.

(** Is the number read back from the printed form of [v], as an element
    of a joined array, NaN? *)
Fixpoint printed_is_nan (v : value) : bool :=
  match v with
  | VUndefined | VNull => false
  | VBool _ => true
  | VNum n => num_is_nan n
  | VStr s => string_is_nan s
  | VArr [] => false
  | VArr [e] => printed_is_nan e
  | VArr (_ :: _ :: _) => true
  | VObj _ | VError _ => true
  end.

(** *** The global [isNaN] *)
Definition isNaN (v : value) : completion bool :=
  match v with
  | VUndefined => Normal true
  | VNull | VBool _ => Normal false
  | VNum n => Normal (num_is_nan n)
  | VStr s => Normal (string_is_nan s)
  | VArr _ | VObj _ =>
      if print_throws v then ThrowTypeError else Normal (printed_is_nan v)
  | VError _ => Normal true
  end.

End JS.

(* ================================================================== *)
(** ** The [Q] deferred *)
(* ================================================================== *)

Module Q.
Import JS.

(** A deferred is pending until it is settled, and is settled once:
    later calls of [resolve] or [reject] leave it as it is. *)
Inductive state : Type :=
| Pending
| Fulfilled (v : value)
| Rejected (reason : value).

(** What a callback asks of the deferred it closes over:
    [deferred.resolve(v)] or [deferred.reject(reason)]. *)
Inductive settle : Type :=
| Resolve (v : value)
| Reject (reason : value).

Definition apply (a : settle) (d : state) : state :=
  match d with
  | Pending =>
      match a with
      | Resolve v => Fulfilled v
      | Reject reason => Rejected reason
      end
  | _ => d
  end.

(** The promise a method hands back: [Q.reject(reason)], rejected from
    the start, or [deferred.promise], which follows the deferred. *)
Inductive promise : Type :=
| reject (reason : value)
| deferred_promise.

End Q.

(* ================================================================== *)
(** ** src/stripe/index.js *)
(* ================================================================== *)

Module Stripe.
Import JS.

(** The SDK entry points the file calls. *)
Inductive api : Type :=
| charges_create | charges_retrieve | charges_list
| customers_create | customers_retrieve | customers_del | customers_list
| tokens_create | tokens_retrieve
| accounts_create
| customers_createSource | customers_retrieveCard | customers_deleteCard
| customers_listCards.

(** A Node-style completion callback [function (err, result) { ... }]. *)
Definition callback : Type := value -> value -> completion Q.settle.

(** One vendor call: the entry point, the arguments before the
    callback, and the callback. *)
Record call : Type := Call {
  target : api;
  arguments : list value;
  on_done : callback
}.

(** What an invocation of a method amounts to: the promise returned and
    the vendor calls issued before returning. *)
Record outcome : Type := Outcome {
  returned : Q.promise;
  issued : list call
}.

(** [return Q.reject(new Error(msg))], before any vendor call. *)
Definition fail (msg : string) : completion outcome :=
  Normal (Outcome (Q.reject (VError msg)) []).

(** The vendor call followed by [return deferred.promise]. *)
Definition request (t : api) (args : list value) (cb : callback) : completion outcome :=
  Normal (Outcome Q.deferred_promise [Call t args cb]).

(** The callback that every method but the three list methods passes:
    [if (err) { return deferred.reject(err); } return deferred.resolve(x);] *)
Definition settle_with_result : callback :=
  fun err result =>
    if truthy err then Normal (Q.Reject err)
    else Normal (Q.Resolve result).

(** The callback of the list methods, which resolves with [x.data]. *)
Definition settle_with_data : callback :=
  fun err result =>
    if truthy err then Normal (Q.Reject err)
    else data <- get result "data" ;; Normal (Q.Resolve data).

(** *** Transactions *)

Definition createTransaction (amount stripeToken currency : value) : completion outcome :=
  nan <- isNaN amount ;;
  if nan then fail "amount is required and must be a number"
  else if negb (truthy stripeToken) then fail "stripeToken required"
  else
    let charge := VObj [("amount", amount);
                        ("currency", or_else currency (VStr "usd"));
                        ("customer", stripeToken)] in
    request charges_create [charge] settle_with_result.

Definition getTransaction (chargeId : value) : completion outcome :=
  if negb (truthy chargeId) then fail "chargeId required"
  else request charges_retrieve [chargeId] settle_with_result.

Definition listTransactions (limit : value) : completion outcome :=
  let paginate := VObj [("limit", or_else limit (VNum (num_of_Z 10)))] in
  request charges_list [paginate] settle_with_data.

(** *** Users *)

Definition createUser (email metadata description : value) : completion outcome :=
  if negb (truthy email) then fail "email required"
  else if negb (truthy metadata) then fail "metadata required"
  else
    let customer := VObj [("email", email);
                          ("metadata", metadata);
                          ("description", or_else description (VStr ""))] in
    request customers_create [customer] settle_with_result.

Definition getUser (userId : value) : completion outcome :=
  if negb (truthy userId) then fail "userId required"
  else request customers_retrieve [userId] settle_with_result.

Definition updateUser (userId userObject : value) : completion outcome :=
  if negb (truthy userId) then fail "userId required"
  else if negb (truthy userObject) then fail "userObject required"
  else request customers_retrieve [userId; userObject] settle_with_result.

Definition deleteUser (userId : value) : completion outcome :=
  if negb (truthy userId) then fail "userId required"
  else request customers_del [userId] settle_with_result.

Definition listUsers (limit : value) : completion outcome :=
  let paginate := VObj [("limit", or_else limit (VNum (num_of_Z 10)))] in
  request customers_list [paginate] settle_with_data.

(** *** Tokens *)

Definition createToken (cardNumber cvv expirationMonth expirationYear : value)
  : completion outcome :=
  if negb (truthy cardNumber) then fail "cardNumber required"
  else if negb (truthy cvv) then fail "cvv required"
  else if negb (truthy expirationMonth) then fail "expirationMonth required"
  else if negb (truthy expirationYear) then fail "expirationYear required"
  else
    let cardObj := VObj [("card", VObj [("number", cardNumber);
                                        ("exp_month", expirationMonth);
                                        ("exp_year", expirationYear);
                                        ("cvc", cvv)])] in
    request tokens_create [cardObj] settle_with_result.

Definition getToken (tokenId : value) : completion outcome :=
  if negb (truthy tokenId) then fail "tokenId required"
  else request tokens_retrieve [tokenId] settle_with_result.

(** *** Account *)

Definition createAccount (isManaged email : value) : completion outcome :=
  let account := VObj [("managed", isManaged); ("email", email)] in
  request accounts_create [account] settle_with_result.

(** *** Cards *)

Definition createCard (userId cardNumber expirationMonth expirationYear cvv : value)
  : completion outcome :=
  if negb (truthy userId) then fail "userId required"
  else if negb (truthy cardNumber) then fail "cardNumber required"
  else if negb (truthy expirationMonth) then fail "expirationMonth required"
  else if negb (truthy expirationYear) then fail "expirationYear required"
  else if negb (truthy cvv) then fail "cvv required"
  else
    let cardDetails := VObj [("source", VObj [("object", VStr "card");
                                              ("exp_month", expirationMonth);
                                              ("exp_year", expirationYear);
                                              ("number", cardNumber);
                                              ("cvc", cvv)])] in
    request customers_createSource [userId; cardDetails] settle_with_result.

Definition getCard (userId cardId : value) : completion outcome :=
  if negb (truthy cardId) then fail "cardId required"
  else if negb (truthy userId) then fail "userId required"
  else request customers_retrieveCard [userId; cardId] settle_with_result.

Definition deleteCard (userId cardId : value) : completion outcome :=
  if negb (truthy cardId) then fail "cardId required"
  else if negb (truthy userId) then fail "userId required"
  else request customers_deleteCard [userId; cardId] settle_with_result.

Definition listCards (userId : value) : completion outcome :=
  if negb (truthy userId) then fail "userId required"
  else request customers_listCards [userId] settle_with_data.

(** *** Calling a method with an argument list

    A parameter with no argument is [undefined]; arguments beyond the
    parameters are ignored. *)
Inductive method : Type :=
| CreateTransaction | GetTransaction | ListTransactions
| CreateUser | GetUser | UpdateUser | DeleteUser | ListUsers
| CreateToken | GetToken
| CreateAccount
| CreateCard | GetCard | DeleteCard | ListCards.

Definition arg (i : nat) (args : list value) : value := nth i args VUndefined.

Definition invoke (m : method) (args : list value) : completion outcome :=
  let a i := arg i args in
  match m with
  | CreateTransaction => createTransaction (a 0%nat) (a 1%nat) (a 2%nat)
  | GetTransaction => getTransaction (a 0%nat)
  | ListTransactions => listTransactions (a 0%nat)
  | CreateUser => createUser (a 0%nat) (a 1%nat) (a 2%nat)
  | GetUser => getUser (a 0%nat)
  | UpdateUser => updateUser (a 0%nat) (a 1%nat)
  | DeleteUser => deleteUser (a 0%nat)
  | ListUsers => listUsers (a 0%nat)
  | CreateToken => createToken (a 0%nat) (a 1%nat) (a 2%nat) (a 3%nat)
  | GetToken => getToken (a 0%nat)
  | CreateAccount => createAccount (a 0%nat) (a 1%nat)
  | CreateCard => createCard (a 0%nat) (a 1%nat) (a 2%nat) (a 3%nat) (a 4%nat)
  | GetCard => getCard (a 0%nat) (a 1%nat)
  | DeleteCard => deleteCard (a 0%nat) (a 1%nat)
  | ListCards => listCards (a 0%nat)
  end.

(** The vendor answers a call by invoking its callback; the deferred
    moves accordingly.  A callback that throws leaves it untouched. *)
Definition answer (c : call) (err result : value) (d : Q.state) : completion Q.state :=
  a <- on_done c err result ;; Normal (Q.apply a d).

(** *** The argument checks, as data

    [parameters] is the parameter list of each method as declared;
    [required] the parameters that must be given, in declaration order;
    [checks] the same parameters in the order in which the method body
    tests them. *)
Definition parameters (m : method) : list string :=
  match m with
  | CreateTransaction => ["amount"; "stripeToken"; "currency"]
  | GetTransaction => ["chargeId"]
  | ListTransactions => ["limit"]
  | CreateUser => ["email"; "metadata"; "description"]
  | GetUser => ["userId"]
  | UpdateUser => ["userId"; "userObject"]
  | DeleteUser => ["userId"]
  | ListUsers => ["limit"]
  | CreateToken => ["cardNumber"; "cvv"; "expirationMonth"; "expirationYear"]
  | GetToken => ["tokenId"]
  | CreateAccount => ["isManaged"; "email"]
  | CreateCard => ["userId"; "cardNumber"; "expirationMonth"; "expirationYear"; "cvv"]
  | GetCard => ["userId"; "cardId"]
  | DeleteCard => ["userId"; "cardId"]
  | ListCards => ["userId"]
  end.

Definition required (m : method) : list string :=
  match m with
  | CreateTransaction => ["amount"; "stripeToken"]
  | GetTransaction => ["chargeId"]
  | CreateUser => ["email"; "metadata"]
  | GetUser | DeleteUser | ListCards => ["userId"]
  | UpdateUser => ["userId"; "userObject"]
  | CreateToken => ["cardNumber"; "cvv"; "expirationMonth"; "expirationYear"]
  | GetToken => ["tokenId"]
  | CreateCard => ["userId"; "cardNumber"; "expirationMonth"; "expirationYear"; "cvv"]
  | GetCard | DeleteCard => ["userId"; "cardId"]
  | ListTransactions | ListUsers | CreateAccount => []
  end.

Definition checks (m : method) : list string :=
  match m with
  | GetCard | DeleteCard => ["cardId"; "userId"]
  | _ => required m
  end.

Fixpoint position (name : string) (names : list string) : nat :=
  match names with
  | [] => 0
  | n :: names' => if n =? name then 0 else S (position name names')
  end.

(** The argument bound to parameter [name] in a call of [m]. *)
Definition actual (m : method) (name : string) (args : list value) : value :=
  arg (position name (parameters m)) args.

(** The test a method applies to a required argument: [isNaN] for
    [amount], falsiness for every other one. *)
Definition fails (name : string) (v : value) : completion bool :=
  if name =? "amount" then isNaN v else Normal (negb (truthy v)).

Definition message_of (name : string) : string :=
  if name =? "amount" then "amount is required and must be a number"
  else name ++ " required".

(** The first of [names] whose argument fails its test. *)
Fixpoint first_failing (names : list string) (m : method) (args : list value)
  : completion (option string) :=
  match names with
  | [] => Normal None
  | n :: names' =>
      bad <- fails n (actual m n args) ;;
      if bad then Normal (Some n) else first_failing names' m args
  end.

(** Every required argument other than [name] passes its test. *)
Definition others_pass (m : method) (name : string) (args : list value) : Prop :=
  Forall (fun n => n = name \/ fails n (actual m n args) = Normal false) (required m).

(** A missing or empty argument. *)
Definition missing_or_empty (v : value) : Prop :=
  v = VUndefined \/ v = VNull \/ v = VStr "".

(** [contains needle s]: [needle] occurs in [s]. *)
Fixpoint contains (needle s : string) : bool :=
  String.prefix needle s ||
  match s with
  | EmptyString => false
  | String _ s' => contains needle s'
  end.

Definition is_list (m : method) : bool :=
  match m with
  | ListTransactions | ListUsers | ListCards => true
  | _ => false
  end.

(** *** The SDK entry point of each method *)
Definition entry_point (m : method) : api :=
  match m with
  | CreateTransaction => charges_create
  | GetTransaction => charges_retrieve
  | ListTransactions => charges_list
  | CreateUser => customers_create
  | GetUser | UpdateUser => customers_retrieve
  | DeleteUser => customers_del
  | ListUsers => customers_list
  | CreateToken => tokens_create
  | GetToken => tokens_retrieve
  | CreateAccount => accounts_create
  | CreateCard => customers_createSource
  | GetCard => customers_retrieveCard
  | DeleteCard => customers_deleteCard
  | ListCards => customers_listCards
  end.

End Stripe.

(* ================================================================== *)
(** ** src/mailer/providers/mandrill.js *)
(* ================================================================== *)

Module Mandrill.
Import JS.

(** The two SDK entry points [getContent] calls.  Each takes a request
    object, a success callback and an error callback. *)
Inductive api : Type :=
| templates_info
| templates_render.

(** What a callback does: settle the deferred, or issue a further
    vendor call. *)
Inductive effect : Type :=
| Resolve (v : value)
| Reject (reason : value)
| Issue (c : call)
with call : Type :=
| Call (target : api) (request : value)
       (onsuccess : value -> completion effect)
       (onerror : value -> completion effect).

Definition target (c : call) : api := let (t, _, _, _) := c in t.
Definition request (c : call) : value := let (_, r, _, _) := c in r.
Definition onsuccess (c : call) : value -> completion effect :=
  let (_, _, f, _) := c in f.
Definition onerror (c : call) : value -> completion effect :=
  let (_, _, _, f) := c in f.

(** The loop
    [for (var param in params) { mergeVars.push({name: param, content: params[param]}); }] *)
Fixpoint push_each (params : value) (keys : list string) (mergeVars : list value)
  : completion (list value) :=
  match keys with
  | [] => Normal mergeVars
  | param :: keys' =>
      content <- get params param ;;
      push_each params keys'
        (mergeVars ++ [VObj [("name", VStr param); ("content", content)]])
  end.

(** [getContent] issues [templates.info] and returns [deferred.promise];
    everything else happens in the callbacks. *)
Definition getContent (templateName params : value) : call :=
  Call templates_info (VObj [("name", templateName)])
    (fun result =>
       mergeVars <- push_each params (for_in_keys params) [] ;;
       code <- get result "code" ;;
       Normal (Issue
         (Call templates_render
            (VObj [("template_name", templateName);
                   ("template_content", code);
                   ("merge_vars", VArr mergeVars)])
            (fun content => html <- get content "html" ;; Normal (Resolve html))
            (fun err => Normal (Reject err)))))
    (fun err => Normal (Reject err)).

(** *** Running [getContent] against the vendor

    The vendor answers each call once, with success or with failure.
    [run] plays a script of answers, one per call in the order the
    calls are issued, and tracks the deferred and the calls made. *)
Inductive answer : Type :=
| Succeeds (result : value)
| Fails (err : value).

Record world : Type := World {
  deferred : Q.state;
  calls : list (api * value)
}.

Definition start : world := World Q.Pending [].

Fixpoint run (script : list answer) (c : call) (w : world) : completion world :=
  let w' := World (deferred w) (calls w ++ [(target c, request c)]) in
  match script with
  | [] => Normal w'
  | a :: script' =>
      e <- match a with
           | Succeeds result => onsuccess c result
           | Fails err => onerror c err
           end ;;
      match e with
      | Resolve v => Normal (World (Q.apply (Q.Resolve v) (deferred w')) (calls w'))
      | Reject r => Normal (World (Q.apply (Q.Reject r) (deferred w')) (calls w'))
      | Issue c' => run script' c' w'
      end
  end.

(** How many calls of entry point [t] were made. *)
Definition is_api (t t' : api) : bool :=
  match t, t' with
  | templates_info, templates_info => true
  | templates_render, templates_render => true
  | _, _ => false
  end.

Definition count_calls (t : api) (w : world) : nat :=
  List.length (filter (fun c => is_api t (fst c)) (calls w)).

(** *** Reading the merge variables back *)

Definition merge_var (name : string) (content : value) : value :=
  VObj [("name", VStr name); ("content", content)].

(** The value of [params[k]] for an enumerated key [k]. *)
Definition read (params : value) (k : string) : value :=
  match get params k with
  | Normal v => v
  | ThrowTypeError => VUndefined
  end.

(** One merge variable per enumerated key of [params], in enumeration
    order, each pairing the key with its value. *)
Definition merge_vars_of (params : value) : list value :=
  map (fun k => merge_var k (read params k)) (for_in_keys params).

(** The request [getContent] passes to [templates.render]. *)
Definition render_request (templateName code : value) (mergeVars : list value) : value :=
  VObj [("template_name", templateName);
        ("template_content", code);
        ("merge_vars", VArr mergeVars)].

(** [run], keeping the world when a callback throws.  A callback that
    throws has had no effect (it throws while it evaluates the argument
    of the call it is about to make), so the deferred and the log are
    those of the moment the callback was entered; the exception leaves
    through the vendor's code.  The boolean tells whether a callback
    threw. *)
Fixpoint play (script : list answer) (c : call) (w : world) : world * bool :=
  let w' := World (deferred w) (calls w ++ [(target c, request c)]) in
  match script with
  | [] => (w', false)
  | a :: script' =>
      match (match a with
             | Succeeds result => onsuccess c result
             | Fails err => onerror c err
             end) with
      | ThrowTypeError => (w', true)
      | Normal (Resolve v) =>
          (World (Q.apply (Q.Resolve v) (deferred w')) (calls w'), false)
      | Normal (Reject r) =>
          (World (Q.apply (Q.Reject r) (deferred w')) (calls w'), false)
      | Normal (Issue c') => play script' c' w'
      end
  end.

(** The two entries of the call log of a [getContent] run. *)
Definition info_entry (templateName : value) : api * value :=
  (templates_info, VObj [("name", templateName)]).

Definition render_entry (templateName code params : value) : api * value :=
  (templates_render, render_request templateName code (merge_vars_of params)).

(** A value [for ... in] finds nothing to visit in. *)
Definition no_keys (v : value) : Prop :=
  match v with
  | VUndefined | VNull | VBool _ | VNum _ | VError _ => True
  | VStr s => s = ""
  | VArr l => l = []
  | VObj ps => ps = []
  end.

End Mandrill.

(* ================================================================== *)
(** ** Properties of the Stripe facade *)
(* ================================================================== *)

Module StripeProperties.
Import JS Stripe.

(** A missing or empty argument fails the presence test; [amount] is
    tested with [isNaN], which holds of [undefined] but neither of
    [null] nor of the empty string. *)
Lemma missing_or_empty_falsy v : missing_or_empty v -> truthy v = false.
Proof. intros [-> | [-> | ->]]; reflexivity. Qed.

Lemma missing_or_empty_fails name v :
  name <> "amount" -> missing_or_empty v -> fails name v = Normal true.
Proof.
  intros Hname H. unfold fails.
  destruct (name =? "amount") eqn:E.
  - apply String.eqb_eq in E. contradiction.
  - now rewrite (missing_or_empty_falsy v H).
Qed.

Lemma amount_check_on_missing_or_empty :
  fails "amount" VUndefined = Normal true /\
  fails "amount" VNull = Normal false /\
  fails "amount" (VStr "") = Normal false.
Proof. repeat split; reflexivity. Qed.

Lemma first_failing_none names m args :
  first_failing names m args = Normal None ->
  Forall (fun n => fails n (actual m n args) = Normal false) names.
Proof.
  induction names as [ | n names IH ]; intros H.
  - constructor.
  - cbn [first_failing] in H.
    destruct (fails n (actual m n args)) as [ [ | ] | ] eqn:E;
      cbn [bind] in H; try discriminate H.
    constructor; [ exact E | now apply IH ].
Qed.

#[local] Arguments truthy : simpl never.
#[local] Arguments isNaN : simpl never.
#[local] Arguments arg : simpl never.

(** Turn a [Forall] over a literal list of parameter names into one
    hypothesis per name. *)
Ltac split_forall H :=
  repeat match type of H with
  | Forall _ (_ :: _) =>
      let H1 := fresh "Hp" in
      let H2 := fresh "Hrest" in
      apply Forall_cons_iff in H; destruct H as [H1 H2];
      try (destruct H1 as [H1 | H1]; [ try discriminate H1 | ]);
      rename H2 into H
  | Forall _ [] => clear H
  end.

Ltac read_checks :=
  unfold actual, fails in *; cbn in *;
  repeat match goal with
  | H : Normal (negb (truthy _)) = Normal false |- _ =>
      injection H as H; apply negb_false_iff in H
  | H : Normal (negb (truthy _)) = Normal true |- _ =>
      injection H as H; apply negb_true_iff in H
  end.

Ltac run_method :=
  cbn [invoke];
  unfold createTransaction, getTransaction, listTransactions, createUser,
    getUser, updateUser, deleteUser, listUsers, createToken, getToken,
    createAccount, createCard, getCard, deleteCard, listCards;
  repeat match goal with
  | H : truthy ?v = _ |- context [truthy ?v] => rewrite H
  | H : isNaN ?v = _ |- context [isNaN ?v] => rewrite H
  end; cbn.

(** Decide every test that a hypothesis [H] still depends on. *)
Ltac decide_checks H :=
  repeat match type of H with
  | context [isNaN ?v] => destruct (isNaN v) as [ [ | ] | ] eqn:?; cbn in H
  | context [truthy ?v] => destruct (truthy v) eqn:?; cbn in H
  end.

(** C1 (the code departs from it): a call with one required argument
    empty should return a failed future naming that argument and issue
    no vendor call.  [createTransaction] with the empty string for
    [amount] and a proper token does neither: the [isNaN] test lets the
    empty string through, no failed future is returned and
    [charges.create] is called with that amount. *)
Lemma empty_amount_reaches_vendor :
  In "amount" (required CreateTransaction) /\
  missing_or_empty (actual CreateTransaction "amount" [VStr ""; VStr "tok_1"]) /\
  others_pass CreateTransaction "amount" [VStr ""; VStr "tok_1"] /\
  invoke CreateTransaction [VStr ""; VStr "tok_1"] =
    Normal (Outcome Q.deferred_promise
      [Call charges_create
         [VObj [("amount", VStr ""); ("currency", VStr "usd");
                ("customer", VStr "tok_1")]]
         settle_with_result]) /\
  ~ (exists msg, invoke CreateTransaction [VStr ""; VStr "tok_1"] = fail msg).
Proof.
  split; [ left; reflexivity | ].
  split; [ right; right; reflexivity | ].
  split.
  - unfold others_pass. cbn [required].
    constructor; [ left; reflexivity | ].
    constructor; [ right; reflexivity | constructor ].
  - split; [ reflexivity | ].
    intros [msg H]. vm_compute in H. discriminate H.
Qed.

(** Where the tests do catch the argument: for every method and every
    required parameter, when the argument fails the test the method
    applies to it ([isNaN] for [amount], falsiness for the others) and
    the other required arguments pass theirs, the method returns
    [Q.reject] of an [Error] whose message contains the parameter's
    name, and issues no vendor call. *)
Theorem failed_check_rejects_without_call m args name :
  In name (required m) ->
  fails name (actual m name args) = Normal true ->
  others_pass m name args ->
  invoke m args = Normal (Outcome (Q.reject (VError (message_of name))) []) /\
  contains name (message_of name) = true.
Proof.
  intros Hin Hbad Hothers.
  unfold others_pass in Hothers.
  destruct m; cbn [required In] in Hin; try contradiction;
    repeat (destruct Hin as [<- | Hin]; [ | try contradiction ]);
    cbn [required] in Hothers; split_forall Hothers;
    read_checks; try congruence; run_method; split; reflexivity.
Qed.

Lemma failed_check_rejects_without_call_witness :
  invoke GetCard [VStr "cus_1"] =
    Normal (Outcome (Q.reject (VError "cardId required")) []) /\
  contains "cardId" "cardId required" = true.
Proof.
  apply (failed_check_rejects_without_call GetCard [VStr "cus_1"] "cardId").
  - right; left; reflexivity.
  - reflexivity.
  - unfold others_pass; cbn [required].
    constructor; [ right; reflexivity | ].
    constructor; [ left; reflexivity | constructor ].
Defined.

(** C2: when every check of a method passes, the method issues one
    vendor call and returns the deferred's promise; a truthy [err]
    passed to the callback rejects the promise with that very value,
    and otherwise the promise is fulfilled with the callback's result
    as it is, or, for the three list methods, with its [data]
    property. *)
Theorem callback_bridged_to_future m args :
  first_failing (checks m) m args = Normal None ->
  exists c,
    invoke m args = Normal (Outcome Q.deferred_promise [c]) /\
    forall err result,
      (truthy err = true ->
       answer c err result Q.Pending = Normal (Q.Rejected err)) /\
      (truthy err = false ->
       if is_list m
       then forall data, get result "data" = Normal data ->
                         answer c err result Q.Pending = Normal (Q.Fulfilled data)
       else answer c err result Q.Pending = Normal (Q.Fulfilled result)).
Proof.
  intros H. apply first_failing_none in H.
  destruct m; cbn [checks required] in H; split_forall H; read_checks;
    run_method; (eexists; split; [ reflexivity | ]);
    intros err result; unfold answer, settle_with_result, settle_with_data;
    cbn; (split; intros He; rewrite He; [ reflexivity | ]);
    try reflexivity; intros data Hd; rewrite Hd; reflexivity.
Qed.

Lemma callback_bridged_to_future_witness :
  exists c,
    invoke ListCards [VStr "cus_1"] = Normal (Outcome Q.deferred_promise [c]) /\
    answer c (VStr "declined") VUndefined Q.Pending
      = Normal (Q.Rejected (VStr "declined")) /\
    answer c VNull (VObj [("object", VStr "list"); ("data", VArr [VStr "card_1"])])
      Q.Pending = Normal (Q.Fulfilled (VArr [VStr "card_1"])).
Proof.
  destruct (callback_bridged_to_future ListCards [VStr "cus_1"] eq_refl)
    as [c [Hc Hcb]].
  exists c. split; [ exact Hc | ]. split.
  - exact (proj1 (Hcb (VStr "declined") VUndefined) eq_refl).
  - exact (proj2 (Hcb VNull
                      (VObj [("object", VStr "list"); ("data", VArr [VStr "card_1"])]))
             eq_refl (VArr [VStr "card_1"]) eq_refl).
Defined.

(** C3, as the specification words it, fails on [getCard] and
    [deleteCard]: called with no argument, the first failing required
    parameter in declaration order is [userId], yet the error is the
    one for [cardId] and does not mention [userId]. *)
Lemma getCard_reports_cardId_first :
  first_failing (required GetCard) GetCard [] = Normal (Some "userId") /\
  invoke GetCard [] = Normal (Outcome (Q.reject (VError "cardId required")) []) /\
  first_failing (required DeleteCard) DeleteCard [] = Normal (Some "userId") /\
  invoke DeleteCard [] = Normal (Outcome (Q.reject (VError "cardId required")) []) /\
  contains "userId" "cardId required" = false /\
  message_of "userId" <> "cardId required".
Proof.
  repeat (split; [ reflexivity | ]). discriminate.
Qed.

(** C3 (amended): the error of a failed call is the one for the first
    failing argument in the order in which the method tests its
    arguments.  That order is the declaration order of the required
    parameters for every method except [getCard] and [deleteCard],
    which test [cardId] before [userId]. *)
Theorem first_failed_check_decides_message m args name :
  first_failing (checks m) m args = Normal (Some name) ->
  invoke m args = Normal (Outcome (Q.reject (VError (message_of name))) []) /\
  contains name (message_of name) = true /\
  (checks m = required m \/
   (m = GetCard \/ m = DeleteCard) /\ checks m = ["cardId"; "userId"]).
Proof.
  intros H.
  destruct m; cbn [checks required first_failing] in H;
    unfold actual, fails in H; cbn in H; decide_checks H;
    try discriminate H; injection H as <-;
    run_method; (split; [ reflexivity | split; [ reflexivity | ] ]);
    first [ left; reflexivity | right; split; [ | reflexivity ]; auto ].
Qed.

Lemma first_failed_check_decides_message_witness :
  invoke CreateCard [VStr "cus_1"; VStr ""; VNull] =
    Normal (Outcome (Q.reject (VError "cardNumber required")) []) /\
  contains "cardNumber" "cardNumber required" = true /\
  (checks CreateCard = required CreateCard \/
   (CreateCard = GetCard \/ CreateCard = DeleteCard) /\
   checks CreateCard = ["cardId"; "userId"]).
Proof.
  apply (first_failed_check_decides_message CreateCard
           [VStr "cus_1"; VStr ""; VNull] "cardNumber").
  reflexivity.
Defined.

(** C4 (the code departs from it): a non-numeric amount should fail
    before any vendor call.  The boolean [true], [null], a blank string
    and the empty array are no numbers, yet [isNaN] is false of each
    (they convert to 1 or 0): with a proper token [createTransaction]
    returns the deferred's promise and calls [charges.create] with the
    amount as given. *)
Lemma non_numeric_amounts_reach_vendor :
  Forall
    (fun amount =>
       isNaN amount = Normal false /\
       createTransaction amount (VStr "tok_1") VUndefined =
         Normal (Outcome Q.deferred_promise
           [Call charges_create
              [VObj [("amount", amount); ("currency", VStr "usd");
                     ("customer", VStr "tok_1")]]
              settle_with_result]))
    [VBool true; VNull; VStr "   "; VArr []].
Proof.
  repeat (constructor; [ split; reflexivity | ]). constructor.
Qed.

(** What [createTransaction] does get right there: with an amount for
    which [isNaN] holds, such as the string [abc], it returns a
    rejected promise and issues no vendor call, whatever the other
    arguments; with amount 500, a truthy token and no currency argument
    it issues [charges.create] with a request whose currency is
    [usd]. *)
Theorem createTransaction_nan_amount_and_default_currency stripeToken :
  (forall amount currency,
     isNaN amount = Normal true ->
     createTransaction amount stripeToken currency =
       Normal (Outcome
         (Q.reject (VError "amount is required and must be a number")) [])) /\
  (forall currency,
     createTransaction (VStr "abc") stripeToken currency =
       Normal (Outcome
         (Q.reject (VError "amount is required and must be a number")) [])) /\
  (truthy stripeToken = true ->
   invoke CreateTransaction [VNum (num_of_Z 500); stripeToken] =
     Normal (Outcome Q.deferred_promise
       [Call charges_create
          [VObj [("amount", VNum (num_of_Z 500));
                 ("currency", VStr "usd");
                 ("customer", stripeToken)]]
          settle_with_result])).
Proof.
  split; [ | split ].
  - intros amount currency Hnan. unfold createTransaction.
    rewrite Hnan. reflexivity.
  - intros currency. reflexivity.
  - intros Htok. cbn [invoke]. unfold createTransaction.
    change (isNaN (arg 0 [VNum (num_of_Z 500); stripeToken])) with (Normal false).
    change (arg 1 [VNum (num_of_Z 500); stripeToken]) with stripeToken.
    cbn [bind]. rewrite Htok. reflexivity.
Qed.

Lemma createTransaction_nan_amount_and_default_currency_witness :
  createTransaction (VObj []) (VStr "tok_1") (VStr "eur") =
    Normal (Outcome
      (Q.reject (VError "amount is required and must be a number")) []) /\
  invoke CreateTransaction [VNum (num_of_Z 500); VStr "tok_1"] =
    Normal (Outcome Q.deferred_promise
      [Call charges_create
         [VObj [("amount", VNum (num_of_Z 500));
                ("currency", VStr "usd");
                ("customer", VStr "tok_1")]]
         settle_with_result]).
Proof.
  destruct (createTransaction_nan_amount_and_default_currency (VStr "tok_1"))
    as [Hnan [_ Husd]].
  split.
  - exact (Hnan (VObj []) (VStr "eur") eq_refl).
  - exact (Husd eq_refl).
Defined.

(** C5: [listTransactions()] issues exactly one call, [charges.list]
    with limit 10, and [listTransactions(25)] issues it with limit 25;
    [listUsers] does the same with [customers.list]. *)
Theorem list_limit_default_and_given :
  invoke ListTransactions [] =
    Normal (Outcome Q.deferred_promise
      [Call charges_list [VObj [("limit", VNum (num_of_Z 10))]] settle_with_data]) /\
  invoke ListTransactions [VNum (num_of_Z 25)] =
    Normal (Outcome Q.deferred_promise
      [Call charges_list [VObj [("limit", VNum (num_of_Z 25))]] settle_with_data]) /\
  invoke ListUsers [] =
    Normal (Outcome Q.deferred_promise
      [Call customers_list [VObj [("limit", VNum (num_of_Z 10))]] settle_with_data]) /\
  invoke ListUsers [VNum (num_of_Z 25)] =
    Normal (Outcome Q.deferred_promise
      [Call customers_list [VObj [("limit", VNum (num_of_Z 25))]] settle_with_data]).
Proof.
  repeat split; reflexivity.
Qed.

(** C6: once [userId] and [userObject] are both truthy, [updateUser]
    issues [customers.retrieve] with [userId] and the update payload as
    its arguments, and the promise is fulfilled with the result that
    call reports (rejected with its error when it reports one). *)
Theorem updateUser_calls_retrieve userId userObject :
  truthy userId = true ->
  truthy userObject = true ->
  exists c,
    updateUser userId userObject = Normal (Outcome Q.deferred_promise [c]) /\
    target c = customers_retrieve /\
    arguments c = [userId; userObject] /\
    forall err result,
      (truthy err = false ->
       answer c err result Q.Pending = Normal (Q.Fulfilled result)) /\
      (truthy err = true ->
       answer c err result Q.Pending = Normal (Q.Rejected err)).
Proof.
  intros Hid Hobj. unfold updateUser. rewrite Hid, Hobj. cbn.
  eexists. split; [ reflexivity | ].
  split; [ reflexivity | ]. split; [ reflexivity | ].
  intros err result. unfold answer, settle_with_result. cbn.
  split; intros He; rewrite He; reflexivity.
Qed.

Lemma updateUser_calls_retrieve_witness :
  exists c,
    updateUser (VStr "cus_1") (VObj [("email", VStr "a@b.com")]) =
      Normal (Outcome Q.deferred_promise [c]) /\
    target c = customers_retrieve /\
    arguments c = [VStr "cus_1"; VObj [("email", VStr "a@b.com")]] /\
    answer c VNull (VObj [("id", VStr "cus_1")]) Q.Pending =
      Normal (Q.Fulfilled (VObj [("id", VStr "cus_1")])).
Proof.
  destruct (updateUser_calls_retrieve (VStr "cus_1")
              (VObj [("email", VStr "a@b.com")]) eq_refl eq_refl)
    as [c [Hc [Ht [Ha Hcb]]]].
  exists c. repeat (split; [ assumption | ]).
  exact (proj1 (Hcb VNull (VObj [("id", VStr "cus_1")])) eq_refl).
Defined.

(** C9: for every falsy [limit], and so for 0, [listTransactions] and
    [listUsers] issue their list call with limit 10. *)
Theorem falsy_limit_defaults_to_10 limit :
  truthy limit = false ->
  listTransactions limit =
    Normal (Outcome Q.deferred_promise
      [Call charges_list [VObj [("limit", VNum (num_of_Z 10))]] settle_with_data]) /\
  listUsers limit =
    Normal (Outcome Q.deferred_promise
      [Call customers_list [VObj [("limit", VNum (num_of_Z 10))]] settle_with_data]).
Proof.
  intros H. unfold listTransactions, listUsers, or_else. rewrite H.
  split; reflexivity.
Qed.

Lemma falsy_limit_defaults_to_10_witness :
  listTransactions (VNum (num_of_Z 0)) =
    Normal (Outcome Q.deferred_promise
      [Call charges_list [VObj [("limit", VNum (num_of_Z 10))]] settle_with_data]) /\
  listUsers (VNum (num_of_Z 0)) =
    Normal (Outcome Q.deferred_promise
      [Call customers_list [VObj [("limit", VNum (num_of_Z 10))]] settle_with_data]).
Proof.
  apply (falsy_limit_defaults_to_10 (VNum (num_of_Z 0))). reflexivity.
Defined.

(** C10: [createTransaction] returns its amount error exactly when
    [isNaN(amount)] holds.  [null] and the empty string are not NaN
    (both convert to 0): with a truthy token, [charges.create] is
    called with a request that carries that amount as it was given. *)
Theorem createTransaction_amount_check_is_isNaN amount stripeToken currency :
  (createTransaction amount stripeToken currency =
     Normal (Outcome
       (Q.reject (VError "amount is required and must be a number")) [])
   <-> isNaN amount = Normal true) /\
  (amount = VNull \/ amount = VStr "" ->
   truthy stripeToken = true ->
   isNaN amount = Normal false /\
   createTransaction amount stripeToken currency =
     Normal (Outcome Q.deferred_promise
       [Call charges_create
          [VObj [("amount", amount);
                 ("currency", or_else currency (VStr "usd"));
                 ("customer", stripeToken)]]
          settle_with_result])).
Proof.
  split.
  - unfold createTransaction. split.
    + destruct (isNaN amount) as [ [ | ] | ]; cbn [bind]; intros H;
        [ reflexivity | | discriminate H ].
      destruct (truthy stripeToken); cbn in H; discriminate H.
    + intros ->. reflexivity.
  - intros Hamount Htok. unfold createTransaction.
    destruct Hamount as [-> | ->];
      (split; [ reflexivity | ]);
      match goal with
      | |- context [isNaN ?v] => change (isNaN v) with (Normal false)
      end; cbn [bind]; rewrite Htok; reflexivity.
Qed.

Lemma createTransaction_amount_check_is_isNaN_witness :
  isNaN VNull = Normal false /\
  createTransaction VNull (VStr "tok_1") VUndefined =
    Normal (Outcome Q.deferred_promise
      [Call charges_create
         [VObj [("amount", VNull);
                ("currency", VStr "usd");
                ("customer", VStr "tok_1")]]
         settle_with_result]).
Proof.
  exact (proj2 (createTransaction_amount_check_is_isNaN VNull (VStr "tok_1") VUndefined)
           (or_introl eq_refl) eq_refl).
Defined.

End StripeProperties.

(* ================================================================== *)
(** ** Properties of the Mandrill provider *)
(* ================================================================== *)

Module MandrillProperties.
Import JS Mandrill.

(** Sorting the index keys only reorders them. *)
Lemma insert_key_perm x l : Permutation (insert_key x l) (x :: l).
Proof.
  induction l as [ | y l IH ]; cbn [insert_key].
  - apply Permutation_refl.
  - destruct (fst x <=? fst y)%N.
    + apply Permutation_refl.
    + eapply Permutation_trans; [ apply perm_skip, IH | apply perm_swap ].
Qed.

Lemma sort_keys_perm l : Permutation (sort_keys l) l.
Proof.
  induction l as [ | x l IH ]; cbn [sort_keys].
  - constructor.
  - eapply Permutation_trans; [ apply insert_key_perm | now apply perm_skip ].
Qed.

Lemma index_keys_filter ks : map snd (index_keys ks) = filter is_index ks.
Proof.
  induction ks as [ | k ks IH ]; cbn [index_keys filter]; [ reflexivity | ].
  unfold is_index at 1. destruct (key_index k); cbn [map snd]; now rewrite IH.
Qed.

Lemma filter_split {A} (p : A -> bool) l :
  Permutation l (filter p l ++ filter (fun x => negb (p x)) l).
Proof.
  induction l as [ | x l IH ]; cbn [filter]; [ constructor | ].
  destruct (p x); cbn [negb app].
  - now apply perm_skip.
  - now apply Permutation_cons_app.
Qed.

(** The enumeration visits every own key, each once per occurrence. *)
Lemma own_keys_perm ps : Permutation (map fst ps) (own_keys ps).
Proof.
  unfold own_keys.
  eapply Permutation_trans; [ apply (filter_split is_index) | ].
  apply Permutation_app_tail.
  rewrite <- index_keys_filter.
  apply Permutation_map, Permutation_sym, sort_keys_perm.
Qed.

Lemma lookup_in k v ps :
  NoDup (map fst ps) -> In (k, v) ps -> lookup k ps = Some v.
Proof.
  induction ps as [ | [k' v'] ps IH ]; intros Hnd Hin; [ contradiction | ].
  cbn [map fst] in Hnd. apply NoDup_cons_iff in Hnd as [Hfresh Hnd].
  cbn [lookup]. destruct Hin as [Heq | Hin].
  - injection Heq as -> ->. now rewrite String.eqb_refl.
  - destruct (k' =? k) eqn:E.
    + apply String.eqb_eq in E. subst k'.
      exfalso. apply Hfresh. now apply (in_map fst) in Hin.
    + now apply IH.
Qed.

Section Loop.

Variable params : value.

(** A property read throws only on [undefined] and [null], which the
    loop never reads from since they have no keys to visit. *)
Lemma get_enumerated k :
  In k (for_in_keys params) -> get params k = Normal (read params k).
Proof.
  unfold read. destruct params; cbn [for_in_keys]; try contradiction;
    intros _; destruct (get _ k) eqn:E; try reflexivity;
    cbn [get] in E;
    repeat match type of E with
    | context [match ?x with _ => _ end] => destruct x
    end; discriminate E.
Qed.

Lemma push_each_spec keys mergeVars :
  (forall k, In k keys -> get params k = Normal (read params k)) ->
  push_each params keys mergeVars =
    Normal (mergeVars ++ map (fun k => merge_var k (read params k)) keys).
Proof.
  revert mergeVars.
  induction keys as [ | k keys IH ]; intros mergeVars Hget; cbn [push_each map].
  - now rewrite app_nil_r.
  - rewrite (Hget k (or_introl eq_refl)). cbn [bind].
    rewrite IH by (intros k' Hk'; apply Hget; now right).
    now rewrite <- app_assoc.
Qed.

Lemma loop_builds_merge_vars :
  push_each params (for_in_keys params) [] = Normal (merge_vars_of params).
Proof.
  rewrite push_each_spec by apply get_enumerated. reflexivity.
Qed.

End Loop.

(** C7: when the vendor answers the template lookup with a failure,
    the error callback rejects the deferred with that very error, and
    the run ends with [templates.info] as the only call made, whatever
    the vendor would have answered next: [templates.render] is never
    issued. *)
Theorem lookup_failure_rejects_without_render templateName params err script :
  onerror (getContent templateName params) err = Normal (Reject err) /\
  exists w,
    run (Fails err :: script) (getContent templateName params) start = Normal w /\
    deferred w = Q.Rejected err /\
    calls w = [(templates_info, VObj [("name", templateName)])] /\
    count_calls templates_render w = 0.
Proof.
  split; [ reflexivity | ].
  eexists. split; [ reflexivity | ]. repeat split.
Qed.

(** C8: when the lookup succeeds with a result whose [code] is [code],
    the success callback issues [templates.render] with that code and
    with one merge variable per enumerated key of [params], in
    enumeration order, each pairing the key with its value; for an
    object [params] these are exactly its properties, one entry each.
    When the render succeeds, the deferred is fulfilled with the [html]
    of the render result and nothing else. *)
Theorem getContent_renders_with_merge_vars templateName params result code :
  get result "code" = Normal code ->
  (exists ok ko,
     onsuccess (getContent templateName params) result =
       Normal (Issue (Call templates_render
                        (render_request templateName code (merge_vars_of params))
                        ok ko))) /\
  (forall ps,
     params = VObj ps -> NoDup (map fst ps) ->
     Permutation (map (fun kv => merge_var (fst kv) (snd kv)) ps)
                 (merge_vars_of params) /\
     List.length (merge_vars_of params) = List.length ps) /\
  (forall content html script,
     get content "html" = Normal html ->
     run (Succeeds result :: Succeeds content :: script)
         (getContent templateName params) start =
       Normal (World (Q.Fulfilled html)
                 [(templates_info, VObj [("name", templateName)]);
                  (templates_render,
                   render_request templateName code (merge_vars_of params))])).
Proof.
  intros Hcode. split; [ | split ].
  - cbn [getContent onsuccess]. rewrite loop_builds_merge_vars. cbn [bind].
    rewrite Hcode. cbn [bind]. eexists. eexists. reflexivity.
  - intros ps -> Hnd. unfold merge_vars_of. cbn [for_in_keys].
    assert (Hmap : map (fun kv => merge_var (fst kv) (snd kv)) ps =
                   map (fun k => merge_var k (read (VObj ps) k)) (map fst ps)).
    { rewrite map_map. apply map_ext_in. intros [k v] Hin. cbn [fst snd].
      unfold read. cbn [get]. now rewrite (lookup_in k v ps Hnd Hin). }
    split.
    + rewrite Hmap. apply Permutation_map, own_keys_perm.
    + rewrite length_map, <- (Permutation_length (own_keys_perm ps)).
      apply length_map.
  - intros content html script Hhtml.
    cbn [run getContent onsuccess target request start deferred calls app].
    rewrite loop_builds_merge_vars. cbn [bind]. rewrite Hcode. cbn [bind].
    cbn [run onsuccess target request deferred calls app].
    rewrite Hhtml. reflexivity.
Qed.

Lemma getContent_renders_with_merge_vars_witness :
  run [Succeeds (VObj [("code", VStr "<div>{{name}}</div>")]);
       Succeeds (VObj [("html", VStr "<div>Ana</div>")])]
      (getContent (VStr "welcome") (VObj [("name", VStr "Ana")])) start =
    Normal (World (Q.Fulfilled (VStr "<div>Ana</div>"))
              [(templates_info, VObj [("name", VStr "welcome")]);
               (templates_render,
                VObj [("template_name", VStr "welcome");
                      ("template_content", VStr "<div>{{name}}</div>");
                      ("merge_vars",
                       VArr [VObj [("name", VStr "name");
                                   ("content", VStr "Ana")]])])]).
Proof.
  exact (proj2 (proj2 (getContent_renders_with_merge_vars
                         (VStr "welcome") (VObj [("name", VStr "Ana")])
                         (VObj [("code", VStr "<div>{{name}}</div>")])
                         (VStr "<div>{{name}}</div>") eq_refl))
           (VObj [("html", VStr "<div>Ana</div>")]) (VStr "<div>Ana</div>") []
           eq_refl).
Defined.

End MandrillProperties.

(* ================================================================== *)
(** ** Facts about the JavaScript fragment *)
(* ================================================================== *)

Module JSFacts.
Import JS.

(** Reading a property throws on [undefined] and [null] only. *)
Lemma get_throws v k :
  get v k = ThrowTypeError <-> v = VUndefined \/ v = VNull.
Proof.
  split.
  - destruct v; cbn [get]; intros H; auto;
      repeat match type of H with
      | context [match ?x with _ => _ end] => destruct x
      end; discriminate H.
  - intros [-> | ->]; reflexivity.
Qed.

(** The decimal form of an array index reads back as that index. *)
Lemma key_index_of_index_key i :
  (i < 4294967295)%N -> key_index (index_key i) = Some i.
Proof.
  intros Hi. unfold key_index, index_key.
  rewrite NilEmpty.usu, DecimalN.Unsigned.of_to, String.eqb_refl.
  apply N.ltb_lt in Hi. now rewrite Hi.
Qed.

(** Reading an array at the key of a position within it yields the
    element at that position. *)
Lemma get_array_element l i e :
  (N.of_nat (List.length l) < 4294967295)%N ->
  nth_error l i = Some e ->
  get (VArr l) (index_key (N.of_nat i)) = Normal e.
Proof.
  intros Hlen Hnth.
  assert (Hi : (i < List.length l)%nat).
  { apply nth_error_Some. rewrite Hnth. discriminate. }
  cbn [get]. rewrite key_index_of_index_key by lia.
  unfold nth_elem.
  assert (Hlt : (N.of_nat i <? N.of_nat (List.length l))%N = true)
    by (apply N.ltb_lt; lia).
  rewrite Hlt, Nat2N.id, Hnth. reflexivity.
Qed.

End JSFacts.

(* ================================================================== *)
(** ** Further properties of the Stripe facade *)
(* ================================================================== *)

Module StripeFacts.
Import JS Stripe JSFacts.

#[local] Arguments truthy : simpl never.
#[local] Arguments isNaN : simpl never.
#[local] Arguments arg : simpl never.

Ltac unfold_methods :=
  cbn [invoke];
  unfold createTransaction, getTransaction, listTransactions, createUser,
    getUser, updateUser, deleteUser, listUsers, createToken, getToken,
    createAccount, createCard, getCard, deleteCard, listCards, fail, request.

Ltac unfold_methods_in H :=
  cbn [invoke] in H;
  unfold createTransaction, getTransaction, listTransactions, createUser,
    getUser, updateUser, deleteUser, listUsers, createToken, getToken,
    createAccount, createCard, getCard, deleteCard, listCards, fail, request in H.

(** Decide, one after the other, the tests [H] is stuck on. *)
Ltac decide_tests H :=
  repeat match type of H with
  | context [isNaN ?v] => destruct (isNaN v) as [ [ | ] | ] eqn:?; cbn in H
  | context [truthy ?v] => destruct (truthy v) eqn:?; cbn in H
  end.

(** X1: no method throws, with one exception: [createTransaction]
    throws exactly when [isNaN(amount)] does. *)
Theorem only_isNaN_can_throw m args :
  invoke m args = ThrowTypeError <->
  m = CreateTransaction /\ isNaN (arg 0 args) = ThrowTypeError.
Proof.
  split.
  - intros H. destruct m; unfold_methods_in H; decide_tests H;
      try discriminate H. split; reflexivity.
  - intros [-> H]. unfold_methods. now rewrite H.
Qed.

Lemma only_isNaN_can_throw_witness :
  invoke CreateTransaction [VObj [("toString", VStr "1")]; VStr "tok_1"] = ThrowTypeError.
Proof.
  apply (proj2 (only_isNaN_can_throw CreateTransaction
                  [VObj [("toString", VStr "1")]; VStr "tok_1"])).
  split; reflexivity.
Defined.

(** X2: an invocation that returns either returns a promise rejected
    with an [Error] and has issued no vendor call, or returns the
    deferred's promise and has issued exactly one call, to the entry
    point of the method. *)
Theorem rejected_or_one_call m args o :
  invoke m args = Normal o ->
  (exists msg, returned o = Q.reject (VError msg) /\ issued o = []) \/
  (returned o = Q.deferred_promise /\
   exists c, issued o = [c] /\ target c = entry_point m).
Proof.
  intros H. destruct m; unfold_methods_in H; decide_tests H;
    try discriminate H; injection H as <-; cbn;
    first [ left; eexists; split; reflexivity
          | right; split; [ reflexivity | eexists; split; reflexivity ] ].
Qed.

Lemma rejected_or_one_call_witness :
  (exists msg,
     returned (Outcome (Q.reject (VError "email required")) []) =
       Q.reject (VError msg) /\
     issued (Outcome (Q.reject (VError "email required")) []) = []) \/
  (returned (Outcome (Q.reject (VError "email required")) []) = Q.deferred_promise /\
   exists c, issued (Outcome (Q.reject (VError "email required")) []) = [c] /\
             target c = entry_point CreateUser).
Proof.
  apply (rejected_or_one_call CreateUser [VStr ""; VObj []]). reflexivity.
Defined.

(** Find the parameter whose message the goal mentions. *)
Ltac try_name n := exists n; split; [ | split; [ reflexivity | ] ].

Ltac pick_name :=
  first [ try_name "amount" | try_name "stripeToken" | try_name "chargeId"
        | try_name "email" | try_name "metadata" | try_name "userId"
        | try_name "userObject" | try_name "cardNumber" | try_name "cvv"
        | try_name "expirationMonth" | try_name "expirationYear"
        | try_name "tokenId" | try_name "cardId" ].

(** X3: a rejection is never spurious.  When a method returns a promise
    rejected with message [msg], some required argument really fails
    its test, [msg] is the message for it, and it is the only required
    parameter of the method whose name occurs in [msg]. *)
Theorem rejection_names_a_failing_argument m args msg :
  invoke m args = Normal (Outcome (Q.reject (VError msg)) []) ->
  exists name,
    In name (required m) /\
    msg = message_of name /\
    fails name (actual m name args) = Normal true /\
    forall n, In n (required m) -> contains n msg = true -> n = name.
Proof.
  intros H. destruct m; unfold_methods_in H; decide_tests H;
    try discriminate H; injection H as <-;
    (pick_name;
     [ cbn; tauto
     | split;
       [ unfold fails, actual; cbn;
         repeat match goal with
         | H : truthy ?v = _ |- context [truthy ?v] => rewrite H
         | H : isNaN ?v = _ |- context [isNaN ?v] => rewrite H
         end; reflexivity
       | intros n Hn; cbn [required In] in Hn;
         repeat (destruct Hn as [<- | Hn]; [ | try contradiction ]);
         intros Hc; first [ reflexivity | vm_compute in Hc; discriminate Hc ] ] ]).
Qed.

Lemma rejection_names_a_failing_argument_witness :
  exists name,
    In name (required GetCard) /\
    "cardId required" = message_of name /\
    fails name (actual GetCard name [VUndefined; VStr ""]) = Normal true.
Proof.
  destruct (rejection_names_a_failing_argument GetCard [VUndefined; VStr ""]
              "cardId required" eq_refl) as [name [Hin [Hmsg [Hbad _]]]].
  exists name. split; [ exact Hin | ]. split; [ exact Hmsg | exact Hbad ].
Defined.

(** X4: called with no argument at all, a method that tests arguments
    returns the rejection of its first test; a method that tests none
    ([listTransactions], [listUsers], [createAccount]) issues its
    vendor call whatever it is given. *)
Theorem no_argument_meets_first_check m :
  match checks m with
  | n :: _ =>
      invoke m [] = Normal (Outcome (Q.reject (VError (message_of n))) [])
  | [] =>
      forall args, exists c,
        invoke m args = Normal (Outcome Q.deferred_promise [c])
  end.
Proof.
  destruct m; cbn [checks required]; try reflexivity;
    intros args; eexists; reflexivity.
Qed.

(** X5: once its two checks pass, [createTransaction] forwards the
    amount exactly as given (a numeric string stays a string) and the
    token as [customer]; the currency is the one given when it is
    truthy and [usd] for every falsy one. *)
Theorem createTransaction_forwards_its_arguments amount stripeToken currency :
  isNaN amount = Normal false ->
  truthy stripeToken = true ->
  exists charge,
    createTransaction amount stripeToken currency =
      Normal (Outcome Q.deferred_promise
                [Call charges_create [charge] settle_with_result]) /\
    get charge "amount" = Normal amount /\
    get charge "customer" = Normal stripeToken /\
    get charge "currency" =
      Normal (if truthy currency then currency else VStr "usd").
Proof.
  intros Hnum Htok. unfold createTransaction. rewrite Hnum. cbn [bind].
  rewrite Htok. cbn [negb]. eexists. split; [ reflexivity | ].
  repeat split.
Qed.

Lemma createTransaction_forwards_its_arguments_witness :
  exists charge,
    createTransaction (VStr " 12 ") (VStr "tok_1") (VStr "") =
      Normal (Outcome Q.deferred_promise
                [Call charges_create [charge] settle_with_result]) /\
    get charge "amount" = Normal (VStr " 12 ") /\
    get charge "customer" = Normal (VStr "tok_1") /\
    get charge "currency" = Normal (VStr "usd").
Proof.
  exact (createTransaction_forwards_its_arguments
           (VStr " 12 ") (VStr "tok_1") (VStr "") eq_refl eq_refl).
Defined.

(** X6: [createUser] never rejects for its description: with a truthy
    email and metadata it issues [customers.create] with both as given
    and with the description when truthy, the empty string otherwise. *)
Theorem createUser_defaults_description email metadata description :
  truthy email = true ->
  truthy metadata = true ->
  exists customer,
    createUser email metadata description =
      Normal (Outcome Q.deferred_promise
                [Call customers_create [customer] settle_with_result]) /\
    get customer "email" = Normal email /\
    get customer "metadata" = Normal metadata /\
    get customer "description" =
      Normal (if truthy description then description else VStr "").
Proof.
  intros He Hm. unfold createUser. rewrite He, Hm. cbn [negb].
  eexists. split; [ reflexivity | ]. repeat split.
Qed.

Lemma createUser_defaults_description_witness :
  exists customer,
    createUser (VStr "a@b.com") (VObj []) (VNum (num_of_Z 0)) =
      Normal (Outcome Q.deferred_promise
                [Call customers_create [customer] settle_with_result]) /\
    get customer "email" = Normal (VStr "a@b.com") /\
    get customer "metadata" = Normal (VObj []) /\
    get customer "description" = Normal (VStr "").
Proof.
  exact (createUser_defaults_description
           (VStr "a@b.com") (VObj []) (VNum (num_of_Z 0)) eq_refl eq_refl).
Defined.

(** X7: the callback a method hands to the vendor throws in one case
    only: a list method ([listTransactions], [listUsers], [listCards])
    answered without error and with [undefined] or [null] for result,
    whose [data] cannot be read.  The deferred is then left pending. *)
Theorem only_list_callbacks_throw m args c err result :
  invoke m args = Normal (Outcome Q.deferred_promise [c]) ->
  (answer c err result Q.Pending = ThrowTypeError <->
   is_list m = true /\ truthy err = false /\
   (result = VUndefined \/ result = VNull)).
Proof.
  intros H. destruct m; unfold_methods_in H; decide_tests H;
    try discriminate H; injection H as <-;
    unfold answer, settle_with_result, settle_with_data; cbn [on_done is_list];
    (split;
     [ destruct (truthy err); cbn [bind]; try discriminate;
       destruct (get result "data") eqn:E; cbn [bind]; try discriminate;
       intros _; apply get_throws in E; auto
     | intros [Hl [He Hr]]; try discriminate Hl; rewrite He;
       apply (get_throws result "data") in Hr; rewrite Hr; reflexivity ]).
Qed.

Lemma only_list_callbacks_throw_witness :
  answer (Call charges_list [VObj [("limit", VNum (num_of_Z 10))]] settle_with_data)
         VNull VUndefined Q.Pending = ThrowTypeError.
Proof.
  apply (proj2 (only_list_callbacks_throw ListTransactions []
                  (Call charges_list [VObj [("limit", VNum (num_of_Z 10))]]
                        settle_with_data)
                  VNull VUndefined eq_refl)).
  split; [ reflexivity | split; [ reflexivity | left; reflexivity ] ].
Defined.

(** X8: [createToken] and [createCard] take the security code at
    different positions, yet given the same card details both send the
    same four fields: [number], [exp_month], [exp_year] and the code
    under [cvc]. *)
Theorem token_and_card_send_same_fields
        userId cardNumber cvv expirationMonth expirationYear :
  truthy userId = true ->
  truthy cardNumber = true ->
  truthy cvv = true ->
  truthy expirationMonth = true ->
  truthy expirationYear = true ->
  exists card source,
    createToken cardNumber cvv expirationMonth expirationYear =
      Normal (Outcome Q.deferred_promise
                [Call tokens_create [VObj [("card", card)]] settle_with_result]) /\
    createCard userId cardNumber expirationMonth expirationYear cvv =
      Normal (Outcome Q.deferred_promise
                [Call customers_createSource [userId; VObj [("source", source)]]
                      settle_with_result]) /\
    get card "number" = Normal cardNumber /\
    get card "exp_month" = Normal expirationMonth /\
    get card "exp_year" = Normal expirationYear /\
    get card "cvc" = Normal cvv /\
    Forall (fun field => get card field = get source field)
           ["number"; "exp_month"; "exp_year"; "cvc"].
Proof.
  intros Hu Hn Hc Hm Hy. unfold createToken, createCard.
  rewrite Hu, Hn, Hc, Hm, Hy. cbn [negb].
  eexists. eexists. split; [ reflexivity | ]. split; [ reflexivity | ].
  repeat split. repeat constructor.
Qed.

Lemma token_and_card_send_same_fields_witness :
  exists card source,
    createToken (VStr "4242424242424242") (VStr "123")
                (VNum (num_of_Z 12)) (VNum (num_of_Z 2030)) =
      Normal (Outcome Q.deferred_promise
                [Call tokens_create [VObj [("card", card)]] settle_with_result]) /\
    createCard (VStr "cus_1") (VStr "4242424242424242")
               (VNum (num_of_Z 12)) (VNum (num_of_Z 2030)) (VStr "123") =
      Normal (Outcome Q.deferred_promise
                [Call customers_createSource
                      [VStr "cus_1"; VObj [("source", source)]]
                      settle_with_result]) /\
    get card "cvc" = Normal (VStr "123") /\
    get source "cvc" = Normal (VStr "123").
Proof.
  destruct (token_and_card_send_same_fields
              (VStr "cus_1") (VStr "4242424242424242") (VStr "123")
              (VNum (num_of_Z 12)) (VNum (num_of_Z 2030))
              eq_refl eq_refl eq_refl eq_refl eq_refl)
    as [card [source [Ht [Hc [_ [_ [_ [Hcvc Hsame]]]]]]]].
  exists card, source. split; [ exact Ht | ]. split; [ exact Hc | ].
  split; [ exact Hcvc | ].
  rewrite <- Hcvc. symmetry.
  exact (proj1 (Forall_forall _ _) Hsame "cvc"
           (or_intror (or_intror (or_intror (or_introl eq_refl))))).
Defined.

End StripeFacts.

(* ================================================================== *)
(** ** Further properties of the Mandrill provider *)
(* ================================================================== *)

Module MandrillFacts.
Import JS Mandrill JSFacts.

Section Runs.

Variables templateName params : value.

(** Every run of [getContent], by cases on the vendor's answers. *)
Lemma run_script script :
  run script (getContent templateName params) start =
  match script with
  | [] => Normal (World Q.Pending [info_entry templateName])
  | Fails err :: _ => Normal (World (Q.Rejected err) [info_entry templateName])
  | Succeeds result :: rest =>
      code <- get result "code" ;;
      let log := [info_entry templateName; render_entry templateName code params] in
      match rest with
      | [] => Normal (World Q.Pending log)
      | Fails err :: _ => Normal (World (Q.Rejected err) log)
      | Succeeds content :: _ =>
          html <- get content "html" ;; Normal (World (Q.Fulfilled html) log)
      end
  end.
Proof.
  destruct script as [ | [result | err] rest ]; try reflexivity.
  cbn [run getContent onsuccess target request start deferred calls app].
  rewrite MandrillProperties.loop_builds_merge_vars. cbn [bind].
  destruct (get result "code") as [code | ]; cbn [bind]; [ | reflexivity ].
  destruct rest as [ | [content | err] rest ]; try reflexivity.
  cbn [run onsuccess target request deferred calls app].
  destruct (get content "html"); reflexivity.
Qed.

(** X9: when the lookup succeeds and the render fails, the deferred is
    rejected with the render error as it is; both calls were made. *)
Theorem render_failure_rejects result code err script :
  get result "code" = Normal code ->
  run (Succeeds result :: Fails err :: script)
      (getContent templateName params) start =
    Normal (World (Q.Rejected err)
              [info_entry templateName; render_entry templateName code params]).
Proof.
  intros Hcode. rewrite run_script. rewrite Hcode. reflexivity.
Qed.

(** [play] agrees with [run]: the same world when no callback throws,
    and a throw in the same runs. *)
Lemma play_run script : forall c w,
  run script c w =
  (if snd (play script c w) then ThrowTypeError
   else Normal (fst (play script c w))).
Proof.
  induction script as [ | a script IH ]; intros c w; [ reflexivity | ].
  cbn [run play].
  destruct (match a with
            | Succeeds result => onsuccess c result
            | Fails err => onerror c err
            end) as [ [v | r | c'] | ]; cbn [bind]; try reflexivity.
  apply IH.
Qed.

(** Every [play] of [getContent], by cases on the vendor's answers. *)
Lemma play_script script :
  play script (getContent templateName params) start =
  match script with
  | [] => (World Q.Pending [info_entry templateName], false)
  | Fails err :: _ => (World (Q.Rejected err) [info_entry templateName], false)
  | Succeeds result :: rest =>
      match get result "code" with
      | ThrowTypeError => (World Q.Pending [info_entry templateName], true)
      | Normal code =>
          let log := [info_entry templateName;
                      render_entry templateName code params] in
          match rest with
          | [] => (World Q.Pending log, false)
          | Fails err :: _ => (World (Q.Rejected err) log, false)
          | Succeeds content :: _ =>
              match get content "html" with
              | ThrowTypeError => (World Q.Pending log, true)
              | Normal html => (World (Q.Fulfilled html) log, false)
              end
          end
      end
  end.
Proof.
  destruct script as [ | [result | err] rest ]; try reflexivity.
  cbn [play getContent onsuccess target request start deferred calls app].
  rewrite MandrillProperties.loop_builds_merge_vars. cbn [bind].
  destruct (get result "code") as [code | ]; cbn [bind]; [ | reflexivity ].
  destruct rest as [ | [content | err] rest ]; try reflexivity.
  cbn [play onsuccess target request deferred calls app].
  destruct (get content "html"); reflexivity.
Qed.

(** X10: whatever the vendor answers, and whether or not a callback
    throws, [getContent] makes [templates.info] first and at most one
    further call, [templates.render] for the same template name with
    the merge variables built from [params]. *)
Theorem info_first_then_at_most_one_render script :
  calls (fst (play script (getContent templateName params) start)) =
    [info_entry templateName] \/
  exists code,
    calls (fst (play script (getContent templateName params) start)) =
      [info_entry templateName; render_entry templateName code params].
Proof.
  rewrite play_script.
  destruct script as [ | [result | err] rest ]; try (left; reflexivity).
  destruct (get result "code") as [code | ]; [ | left; reflexivity ].
  right. exists code.
  destruct rest as [ | [content | err] rest ]; try reflexivity.
  destruct (get content "html"); reflexivity.
Qed.

(** X11: the deferred is still pending after a run exactly when the
    vendor has not answered the call that is outstanding: the lookup,
    or the render that followed a successful lookup. *)
Theorem pending_iff_unanswered script w :
  run script (getContent templateName params) start = Normal w ->
  (deferred w = Q.Pending <->
   script = [] \/ exists result, script = [Succeeds result]).
Proof.
  rewrite run_script.
  destruct script as [ | [result | err] rest ].
  - intros H; injection H as <-. split; auto.
  - destruct (get result "code") as [code | ]; cbn [bind]; [ | discriminate ].
    destruct rest as [ | [content | err] rest ]; cbn zeta.
    + intros H; injection H as <-. split; [ | reflexivity ].
      intros _. right. now exists result.
    + destruct (get content "html"); cbn [bind]; [ | discriminate ].
      intros H; injection H as <-. cbn [deferred]. split; [ discriminate | ].
      intros [H | [r H]]; discriminate H.
    + intros H; injection H as <-. cbn [deferred]. split; [ discriminate | ].
      intros [H | [r H]]; discriminate H.
  - intros H; injection H as <-. cbn [deferred]. split; [ discriminate | ].
    intros [H | [r H]]; discriminate H.
Qed.

(** X12: a callback of [getContent] throws exactly when the vendor
    reports success with [undefined] or [null]: as lookup result (no
    [code] to read) or, after a lookup result that is neither, as
    render result (no [html] to read).  These are the runs in which
    [run] throws, and in each of them the deferred is left pending. *)
Theorem callback_throws_iff_success_without_result script :
  (snd (play script (getContent templateName params) start) = true <->
   (exists result rest,
      script = Succeeds result :: rest /\
      (result = VUndefined \/ result = VNull)) \/
   (exists result content rest,
      script = Succeeds result :: Succeeds content :: rest /\
      result <> VUndefined /\ result <> VNull /\
      (content = VUndefined \/ content = VNull))) /\
  (snd (play script (getContent templateName params) start) = true ->
   deferred (fst (play script (getContent templateName params) start)) = Q.Pending) /\
  (run script (getContent templateName params) start = ThrowTypeError <->
   snd (play script (getContent templateName params) start) = true).
Proof.
  split; [ | split ].
  - rewrite play_script. split.
    + destruct script as [ | [result | err] rest ]; try discriminate.
      destruct (get result "code") as [code | ] eqn:E.
      * destruct rest as [ | [content | err] rest ]; cbn zeta; try discriminate.
        destruct (get content "html") eqn:E'; try discriminate.
        intros _. right. exists result, content, rest.
        split; [ reflexivity | ].
        split; [ intros ->; discriminate E | ].
        split; [ intros ->; discriminate E | ].
        now apply (get_throws content "html").
      * intros _. left. exists result, rest.
        split; [ reflexivity | now apply (get_throws result "code") ].
    + intros [[result [rest [-> Hr]]]
             | [result [content [rest [-> [Hu [Hn Hc]]]]]]].
      * apply (get_throws result "code") in Hr. now rewrite Hr.
      * destruct (get result "code") eqn:E; [ | reflexivity ].
        apply (get_throws content "html") in Hc. cbn zeta. now rewrite Hc.
  - rewrite play_script.
    destruct script as [ | [result | err] rest ]; try discriminate.
    destruct (get result "code") as [code | ]; [ | reflexivity ].
    destruct rest as [ | [content | err] rest ]; cbn zeta; try discriminate.
    destruct (get content "html"); [ discriminate | reflexivity ].
  - rewrite play_run.
    destruct (snd (play script (getContent templateName params) start));
      split; intros H; first [ reflexivity | discriminate H ].
Qed.

(** X13: vendor results are not validated.  A lookup result without a
    [code] property leads to a render call whose [template_content] is
    [undefined], and a render result without an [html] property
    fulfils the deferred with [undefined]. *)
Theorem missing_properties_pass_as_undefined ps qs script :
  lookup "code" ps = None ->
  lookup "html" qs = None ->
  run (Succeeds (VObj ps) :: Succeeds (VObj qs) :: script)
      (getContent templateName params) start =
    Normal (World (Q.Fulfilled VUndefined)
              [info_entry templateName;
               render_entry templateName VUndefined params]).
Proof.
  intros Hcode Hhtml. rewrite run_script. cbn [get].
  rewrite Hcode. cbn [bind]. cbn zeta. cbn [get]. rewrite Hhtml. reflexivity.
Qed.

(** X14: when [params] has nothing to enumerate (it is left out, or is
    a number, a boolean, an [Error], or empty), a successful lookup is
    still followed by the render call, with no merge variable. *)
Theorem no_params_renders_without_merge_vars result code :
  no_keys params ->
  get result "code" = Normal code ->
  run [Succeeds result] (getContent templateName params) start =
    Normal (World Q.Pending
              [info_entry templateName;
               (templates_render, render_request templateName code [])]).
Proof.
  intros Hkeys Hcode. rewrite run_script, Hcode. cbn [bind]. cbn zeta.
  unfold render_entry, merge_vars_of.
  destruct params; cbn [no_keys] in Hkeys; try subst; reflexivity.
Qed.

End Runs.

(** X15: an array given as [params] is enumerated by position: the
    render request carries one merge variable per element, the one at
    position [i] named by the decimal form of [i] and holding the
    element. *)
Theorem array_params_named_by_position templateName result code l :
  (N.of_nat (List.length l) < 4294967295)%N ->
  get result "code" = Normal code ->
  exists mergeVars,
    run [Succeeds result] (getContent templateName (VArr l)) start =
      Normal (World Q.Pending
                [info_entry templateName;
                 (templates_render, render_request templateName code mergeVars)]) /\
    List.length mergeVars = List.length l /\
    forall i e,
      nth_error l i = Some e ->
      nth_error mergeVars i = Some (merge_var (index_key (N.of_nat i)) e).
Proof.
  intros Hlen Hcode. exists (merge_vars_of (VArr l)).
  split; [ | split ].
  - rewrite run_script, Hcode. reflexivity.
  - unfold merge_vars_of, for_in_keys, indices.
    now rewrite !length_map, length_seq.
  - intros i e Hnth.
    assert (Hi : (i < List.length l)%nat).
    { apply nth_error_Some. rewrite Hnth. discriminate. }
    unfold merge_vars_of, for_in_keys, indices. rewrite map_map.
    rewrite nth_error_map, nth_error_seq.
    apply Nat.ltb_lt in Hi. rewrite Hi. cbn [option_map Nat.add].
    unfold read. now rewrite (get_array_element l i e Hlen Hnth).
Qed.

Lemma render_failure_rejects_witness :
  run [Succeeds (VObj [("code", VStr "<p>*|name|*</p>")]);
       Fails (VObj [("status", VStr "error")])]
      (getContent (VStr "welcome") (VObj [("name", VStr "Ana")])) start =
    Normal (World (Q.Rejected (VObj [("status", VStr "error")]))
              [info_entry (VStr "welcome");
               render_entry (VStr "welcome") (VStr "<p>*|name|*</p>")
                            (VObj [("name", VStr "Ana")])]).
Proof.
  exact (render_failure_rejects
           (VStr "welcome") (VObj [("name", VStr "Ana")])
           (VObj [("code", VStr "<p>*|name|*</p>")]) (VStr "<p>*|name|*</p>")
           (VObj [("status", VStr "error")]) [] eq_refl).
Defined.

Lemma pending_iff_unanswered_witness :
  Q.Pending = Q.Pending <->
  [Succeeds (VObj [("code", VStr "<p></p>")])] = [] \/
  exists result, [Succeeds (VObj [("code", VStr "<p></p>")])] = [Succeeds result].
Proof.
  exact (pending_iff_unanswered
           (VStr "welcome") VUndefined
           [Succeeds (VObj [("code", VStr "<p></p>")])]
           (World Q.Pending
                  [info_entry (VStr "welcome");
                   render_entry (VStr "welcome") (VStr "<p></p>") VUndefined])
           eq_refl).
Defined.

Lemma callback_throws_iff_success_without_result_witness :
  snd (play [Succeeds (VObj [("code", VStr "<p></p>")]); Succeeds VNull]
            (getContent (VStr "welcome") VUndefined) start) = true /\
  deferred (fst (play [Succeeds (VObj [("code", VStr "<p></p>")]); Succeeds VNull]
                      (getContent (VStr "welcome") VUndefined) start)) = Q.Pending /\
  run [Succeeds (VObj [("code", VStr "<p></p>")]); Succeeds VNull]
      (getContent (VStr "welcome") VUndefined) start = ThrowTypeError.
Proof.
  destruct (callback_throws_iff_success_without_result
              (VStr "welcome") VUndefined
              [Succeeds (VObj [("code", VStr "<p></p>")]); Succeeds VNull])
    as [Hiff [Hpending Hrun]].
  assert (Hthrew :
    snd (play [Succeeds (VObj [("code", VStr "<p></p>")]); Succeeds VNull]
              (getContent (VStr "welcome") VUndefined) start) = true).
  { apply (proj2 Hiff). right.
    exists (VObj [("code", VStr "<p></p>")]), VNull, [].
    split; [ reflexivity | ].
    split; [ discriminate | ]. split; [ discriminate | right; reflexivity ]. }
  split; [ exact Hthrew | ].
  split; [ exact (Hpending Hthrew) | exact (proj2 Hrun Hthrew) ].
Defined.

Lemma missing_properties_pass_as_undefined_witness :
  run [Succeeds (VObj [("slug", VStr "welcome")]); Succeeds (VObj [])]
      (getContent (VStr "welcome") (VObj [("name", VStr "Ana")])) start =
    Normal (World (Q.Fulfilled VUndefined)
              [info_entry (VStr "welcome");
               render_entry (VStr "welcome") VUndefined
                            (VObj [("name", VStr "Ana")])]).
Proof.
  exact (missing_properties_pass_as_undefined
           (VStr "welcome") (VObj [("name", VStr "Ana")])
           [("slug", VStr "welcome")] [] [] eq_refl eq_refl).
Defined.

Lemma no_params_renders_without_merge_vars_witness :
  run [Succeeds (VObj [("code", VStr "<p></p>")])]
      (getContent (VStr "welcome") VUndefined) start =
    Normal (World Q.Pending
              [info_entry (VStr "welcome");
               (templates_render,
                render_request (VStr "welcome") (VStr "<p></p>") [])]).
Proof.
  exact (no_params_renders_without_merge_vars
           (VStr "welcome") VUndefined
           (VObj [("code", VStr "<p></p>")]) (VStr "<p></p>") I eq_refl).
Defined.

Lemma array_params_named_by_position_witness :
  exists mergeVars,
    run [Succeeds (VObj [("code", VStr "<p></p>")])]
        (getContent (VStr "welcome") (VArr [VStr "Ana"; VStr "Bo"])) start =
      Normal (World Q.Pending
                [info_entry (VStr "welcome");
                 (templates_render,
                  render_request (VStr "welcome") (VStr "<p></p>") mergeVars)]) /\
    nth_error mergeVars 1 = Some (merge_var "1" (VStr "Bo")).
Proof.
  destruct (array_params_named_by_position
              (VStr "welcome") (VObj [("code", VStr "<p></p>")]) (VStr "<p></p>")
              [VStr "Ana"; VStr "Bo"] eq_refl eq_refl)
    as [mergeVars [Hrun [_ Hnth]]].
  exists mergeVars. split; [ exact Hrun | ].
  exact (Hnth 1%nat (VStr "Bo") eq_refl).
Defined.

End MandrillFacts.
